(** * Forecasting module of the cotton-price dashboard (algodao/previsoes.py)

    A shallow embedding of the script [previsoes.py]: the numpy arrays it
    builds, the scikit-learn scaler object it mutates, the three fitted
    models and the three [previsao_*] functions.  The script is modelled
    with prices as real numbers (exact arithmetic) and the numpy,
    scikit-learn and Keras calls by the behaviour the script relies on;
    module [b64] repeats the scaler and the regression error in IEEE
    binary64, the arithmetic the program runs, for what rounding changes. *)

From Stdlib Require Import Reals Lra Lia List Arith Bool.
From Stdlib Require String Floats.
Import ListNotations.

(** ** Python exceptions and fallible results *)

Inductive excecao : Type :=
| IndexError
| ValueError
| NotFittedError.

Inductive resultado (A : Type) : Type :=
| Ok (a : A)
| Erro (e : excecao).

Arguments Ok {A} a.
Arguments Erro {A} e.

Definition bind_r {A B : Type} (r : resultado A) (k : A -> resultado B) : resultado B :=
  match r with
  | Ok a => k a
  | Erro e => Erro e
  end.

(** ** numpy arrays: a shape and a row-major buffer *)

Module np.

Record ndarray : Type := mk_array { shape : list nat; data : list R }.

(** Number of elements described by a shape. *)
Definition size_of (sh : list nat) : nat := fold_right Nat.mul 1%nat sh.

(** [a.shape[k]]: indexing the shape tuple out of range raises IndexError. *)
Definition shape_at (a : ndarray) (k : nat) : resultado nat :=
  match nth_error (shape a) k with
  | Some d => Ok d
  | None => Erro IndexError
  end.

(** [len(a)]. *)
Definition len (a : ndarray) : nat := hd 0%nat (shape a).

(** [np.array(l)] for a Python list of floats. *)
Definition array (l : list R) : ndarray := {| shape := [length l]; data := l |}.

(** [np.array(rows)] for a Python list of equally long 1-D arrays; the
    empty list gives an array of shape (0,). *)
Definition array_of_rows (rows : list ndarray) : ndarray :=
  match rows with
  | [] => {| shape := [0%nat]; data := [] |}
  | r :: _ => {| shape := length rows :: shape r; data := concat (map data rows) |}
  end.

Definition lookup (l : list R) (k : nat) : resultado R :=
  match nth_error l k with
  | Some v => Ok v
  | None => Erro IndexError
  end.

(** [a[i]] on a 1-D array. *)
Definition item1 (a : ndarray) (i : nat) : resultado R :=
  match shape a with
  | [d0] => if i <? d0 then lookup (data a) i else Erro IndexError
  | _ => Erro IndexError
  end.

(** [a[i, j]] (and [a[i][j]]) on a 2-D array. *)
Definition item2 (a : ndarray) (i j : nat) : resultado R :=
  match shape a with
  | [d0; d1] =>
      if (i <? d0) && (j <? d1) then lookup (data a) (i * d1 + j) else Erro IndexError
  | _ => Erro IndexError
  end.

(** [a[i][j][k]] on a 3-D array. *)
Definition item3 (a : ndarray) (i j k : nat) : resultado R :=
  match shape a with
  | [d0; d1; d2] =>
      if (i <? d0) && (j <? d1) && (k <? d2)
      then lookup (data a) ((i * d1 + j) * d2 + k)
      else Erro IndexError
  | _ => Erro IndexError
  end.

(** [a[lo:hi, j]] on a 2-D array, for 0 <= lo: the bounds of the slice are
    clipped to the number of rows, the column index is checked. *)
Definition slice_col (a : ndarray) (lo hi j : nat) : resultado ndarray :=
  match shape a with
  | [d0; d1] =>
      if j <? d1 then
        let lo' := Nat.min lo d0 in
        let hi' := Nat.min hi d0 in
        Ok (array (map (fun r => nth (r * d1 + j) (data a) 0%R) (seq lo' (hi' - lo'))))
      else Erro IndexError
  | _ => Erro IndexError
  end.

(** [a[-k:]] for k > 0: the last k rows, or all of them when there are
    fewer than k. *)
Definition last_rows (a : ndarray) (k : nat) : ndarray :=
  match shape a with
  | d0 :: rest =>
      let start := (d0 - k)%nat in
      {| shape := (d0 - start)%nat :: rest;
         data := skipn (start * size_of rest) (data a) |}
  | [] => a
  end.

(** [a.reshape(sh)]: same buffer, new shape; the sizes must agree. *)
Definition reshape (a : ndarray) (sh : list nat) : resultado ndarray :=
  if size_of sh =? size_of (shape a)
  then Ok {| shape := sh; data := data a |}
  else Erro ValueError.

(** [a.reshape(-1, 1)]: the free dimension is the size of the array. *)
Definition reshape_col (a : ndarray) : ndarray :=
  {| shape := [size_of (shape a); 1%nat]; data := data a |}.

(** Cutting a buffer into [n] consecutive pieces of [k] elements. *)
Fixpoint chunks (k n : nat) (l : list R) : list (list R) :=
  match n with
  | O => []
  | S n' => firstn k l :: chunks k n' (skipn k l)
  end.

(** The sub-arrays along the first axis, each one flattened: what a model
    sees as one sample. *)
Definition samples (a : ndarray) : list (list R) :=
  chunks (size_of (tl (shape a))) (len a) (data a).

(** [np.sqrt]. *)
Definition sqrt (x : R) : R := R_sqrt.sqrt x.

(** The scan behind [np.argmin]: position [i] is being read, [best_i] is the
    position of the smallest value seen so far; only a strictly smaller
    value replaces it, so the first of several equal minima is kept. *)
Fixpoint argmin_from (l : list R) (i best_i : nat) (best : R) : nat :=
  match l with
  | [] => best_i
  | x :: t =>
      if Rlt_dec x best
      then argmin_from t (S i) i x
      else argmin_from t (S i) best_i best
  end.

(** [np.argmin(l)] for a Python list of floats; the empty list is refused. *)
Definition argmin (l : list R) : resultado nat :=
  match l with
  | [] => Erro ValueError
  | x :: t => Ok (argmin_from t 1%nat 0%nat x)
  end.

End np.

Import np.

Local Open Scope R_scope.

(** ** scikit-learn: the min-max scaler object and the squared-error metric *)

Module sklearn.

(** The attributes a fitted [MinMaxScaler] carries (one feature, the
    default [feature_range = (0, 1)], no clipping). *)
Record MinMaxScaler : Type := mk_scaler {
  data_min_ : R;
  data_max_ : R;
  data_range_ : R;
  scale_ : R;
  min_ : R;
  n_samples_seen_ : nat
}.

(** [np.finfo(np.float64).eps]. *)
Definition eps : R := / 2 ^ 52.

(** [_handle_zeros_in_scale]: a range below [10 * eps] is a constant
    feature and is replaced by 1, so that nothing is divided by zero. *)
Definition handle_zeros_in_scale (scale : R) : R :=
  if Rlt_dec scale (10 * eps) then 1 else scale.

(** [np.nanmin(X, axis=0)] and [np.nanmax(X, axis=0)] on one column. *)
Definition nanmin (col : list R) : R :=
  match col with
  | [] => 0
  | x :: t => fold_left Rmin t x
  end.

Definition nanmax (col : list R) : R :=
  match col with
  | [] => 0
  | x :: t => fold_left Rmax t x
  end.

(** What [fit] stores, from the column it is given. *)
Definition fit (col : list R) : MinMaxScaler :=
  let data_min := nanmin col in
  let data_max := nanmax col in
  let data_range := data_max - data_min in
  let scale := (1 - 0) / handle_zeros_in_scale data_range in
  {| data_min_ := data_min;
     data_max_ := data_max;
     data_range_ := data_range;
     scale_ := scale;
     min_ := 0 - data_min * scale;
     n_samples_seen_ := length col |}.

(** [transform]: [X *= scale_; X += min_]. *)
Definition transform (s : MinMaxScaler) (x : R) : R := x * scale_ s + min_ s.

(** [inverse_transform]: [X -= min_; X /= scale_]. *)
Definition inverse_transform (s : MinMaxScaler) (x : R) : R := (x - min_ s) / scale_ s.

(** Input validation of the scaler's methods: a 2-D array with at least one
    sample.  The scaler of the script has a single feature; arrays with
    another number of columns are never passed to it and are refused. *)
Definition check_array (a : ndarray) : resultado unit :=
  match shape a with
  | [S _; 1%nat] => Ok tt
  | _ => Erro ValueError
  end.

(** [np.average] of a buffer. *)
Definition average (l : list R) : R := fold_right Rplus 0 l / INR (length l).

Fixpoint squared_errors (y_true y_pred : list R) : list R :=
  match y_true, y_pred with
  | t :: ts, p :: ps => (t - p) ^ 2 :: squared_errors ts ps
  | _, _ => []
  end.

(** A 1-D target is seen as one column. *)
Definition as_2d (sh : list nat) : list nat :=
  match sh with
  | [n] => [n; 1%nat]
  | _ => sh
  end.

Fixpoint eqb_shape (a b : list nat) : bool :=
  match a, b with
  | [], [] => true
  | x :: a', z :: b' => (x =? z)%nat && eqb_shape a' b'
  | _, _ => false
  end.

(** [mean_squared_error(y_true, y_pred)]: the targets must have the same
    shape and at least one sample; the result is the average of
    [(y_true - y_pred) ** 2]. *)
Definition mean_squared_error (y_true y_pred : ndarray) : resultado R :=
  if eqb_shape (as_2d (shape y_true)) (as_2d (shape y_pred)) && (0 <? len y_true)
  then Ok (average (squared_errors (data y_true) (data y_pred)))
  else Erro ValueError.

(** A fitted [LinearRegression]. *)
Record LinearRegression : Type := mk_lr { coef_ : list R; intercept_ : R }.

Fixpoint dot (x w : list R) : R :=
  match x, w with
  | a :: x', b :: w' => a * b + dot x' w'
  | _, _ => 0
  end.

(** The decision function on one sample: [x @ coef_ + intercept_]. *)
Definition decision (m : LinearRegression) (x : list R) : R := dot x (coef_ m) + intercept_ m.

(** [predict(X)] of a regression fitted on a 1-D target: a 1-D array. *)
Definition predict (m : LinearRegression) (a : ndarray) : ndarray :=
  array (map (decision m) (samples a)).

End sklearn.

(** ** Keras: a trained network is an opaque function on one sample *)

Module keras.

Definition Sequential : Type := list R -> R.

(** [model.predict(X)]: one output per sample, as an array of shape (n, 1). *)
Definition predict (m : Sequential) (a : ndarray) : ndarray :=
  {| shape := [len a; 1%nat]; data := map m (samples a) |}.

End keras.

(** ** The script *)

Definition window : nat := 10.

(** [range(lo, hi)]. *)
Definition range (lo hi : nat) : list nat := seq lo (hi - lo).

(** A [for] loop whose body may raise. *)
Fixpoint for_ {A St : Type} (l : list A) (body : St -> A -> resultado St) (s : St)
  : resultado St :=
  match l with
  | [] => Ok s
  | a :: t => bind_r (body s a) (for_ t body)
  end.

(** One turn of the loop of lines 16-18: [X.append(dados_scaled[i-window:i, 0])]
    and [y.append(dados_scaled[i, 0])]. *)
Definition passo (dados_scaled : ndarray) (acc : list ndarray * list R) (i : nat)
  : resultado (list ndarray * list R) :=
  bind_r (slice_col dados_scaled (i - window) i 0) (fun janela =>
  bind_r (item2 dados_scaled i 0) (fun alvo =>
  Ok (fst acc ++ [janela], snd acc ++ [alvo]))).

(** Lines 15-18: the Python lists [X] and [y] when the loop ends. *)
Definition janelas (dados_scaled : ndarray) : resultado (list ndarray * list R) :=
  for_ (range window (len dados_scaled)) (passo dados_scaled) ([], []).

(** [df[['Preco_R$']].values]: the price series as an array of shape (n, 1). *)
Definition coluna (precos : list R) : ndarray :=
  {| shape := [length precos; 1%nat]; data := precos |}.

(** The calls the script makes on the scaler object, in order. *)
Inductive chamada : Type :=
| FitTransform (a : ndarray)
| InverseTransform (a : ndarray).

Definition e_fit (c : chamada) : bool :=
  match c with
  | FitTransform _ => true
  | InverseTransform _ => false
  end.

(** Training procedures used to run the script on concrete series: a network
    that always answers 0 and a regression with no coefficients. *)
Definition treino_nulo (g : unit) (inputs targets : ndarray) : keras.Sequential * unit :=
  (fun _ => 0, g).

Definition regressao_nula (inputs targets : ndarray) : sklearn.LinearRegression :=
  {| sklearn.coef_ := []; sklearn.intercept_ := 0 |}.

(** Three series: the twelve prices of the documented scenario, twelve equal
    prices, and ten prices (as many as the window). *)
Definition serie_exemplo : list R := [10; 12; 11; 13; 15; 14; 16; 18; 17; 19; 20; 21].

Definition doze_iguais : list R := repeat 15 12.

Definition dez_precos : list R := [10; 12; 11; 13; 15; 14; 16; 18; 17; 19].

(** ** The dashboard (app.py): which model did best *)

Module app.

Import String.

(** Line 147. *)
Definition modelos : list string := ["LSTM"%string; "MLP"%string; "Regressão Linear"%string].

(** [l[k]] on a Python list, for k >= 0. *)
Definition item {A : Type} (l : list A) (k : nat) : resultado A :=
  match nth_error l k with
  | Some v => Ok v
  | None => Erro IndexError
  end.

(** Line 170: [modelos[np.argmin(erros)]]. *)
Definition melhor_modelo (erros : list R) : resultado string :=
  bind_r (np.argmin erros) (item modelos).

End app.

(** ** The arithmetic of the program: IEEE binary64

    The price column, the scaler and the regression work on float64 arrays.
    This module repeats the scaler and the error of the regression with
    binary64 operations, rounding where the program rounds, so that they can
    be run on concrete series.  Prices are numbers (no NaN). *)

Module b64.

Import PrimFloat.

Local Open Scope float_scope.

(** [np.finfo(np.float64).eps]. *)
Definition eps : float := 0x1p-52.

Definition handle_zeros_in_scale (scale : float) : float :=
  if scale <? 10 * eps then 1 else scale.

Definition menor (a x : float) : float := if x <? a then x else a.

Definition maior (a x : float) : float := if a <? x then x else a.

Definition nanmin (col : list float) : float :=
  match col with
  | [] => 0
  | x :: t => fold_left menor t x
  end.

Definition nanmax (col : list float) : float :=
  match col with
  | [] => 0
  | x :: t => fold_left maior t x
  end.

Record MinMaxScaler : Type := mk_scaler {
  data_min_ : float;
  data_max_ : float;
  data_range_ : float;
  scale_ : float;
  min_ : float
}.

Definition fit (col : list float) : MinMaxScaler :=
  let data_min := nanmin col in
  let data_max := nanmax col in
  let data_range := data_max - data_min in
  let scale := (1 - 0) / handle_zeros_in_scale data_range in
  {| data_min_ := data_min;
     data_max_ := data_max;
     data_range_ := data_range;
     scale_ := scale;
     min_ := 0 - data_min * scale |}.

(** [X *= scale_; X += min_]: two roundings. *)
Definition transform (s : MinMaxScaler) (x : float) : float := x * scale_ s + min_ s.

(** [X -= min_; X /= scale_]: two roundings. *)
Definition inverse_transform (s : MinMaxScaler) (x : float) : float :=
  (x - min_ s) / scale_ s.

(** [(y_true - y_pred) ** 2], element by element. *)
Fixpoint squared_errors (y_true y_pred : list float) : list float :=
  match y_true, y_pred with
  | t :: ts, p :: ps => (t - p) * (t - p) :: squared_errors ts ps
  | _, _ => []
  end.

(** The sum of a short array, added from left to right (numpy adds fewer
    than eight numbers in this order). *)
Definition soma (l : list float) : float :=
  match l with
  | [] => 0
  | x :: t => fold_left add t x
  end.

Definition average (l : list float) : float :=
  soma l / of_uint63 (Uint63.of_Z (Z.of_nat (length l))).

(** The normalized series, the training windows and the targets, cut as the
    loop of lines 16-18 cuts them. *)
Definition serie (precos : list float) : list float := map (transform (fit precos)) precos.

Definition janelas (normalizada : list float) : list (list float) :=
  map (fun i => firstn window (skipn i normalizada))
      (seq 0 (length normalizada - window)).

Definition alvos (normalizada : list float) : list float := skipn window normalizada.

(** Lines 65-68 for a regression whose decision function is [modelo]:
    predictions on every training window, inverse transform of predictions
    and targets, mean squared error, square root. *)
Definition rmse_lr_reais (modelo : list float -> float) (precos : list float) : float :=
  let s := fit precos in
  let normalizada := serie precos in
  let y_pred_lr := map modelo (janelas normalizada) in
  let y_pred_lr_original := map (inverse_transform s) y_pred_lr in
  let y_original := map (inverse_transform s) (alvos normalizada) in
  sqrt (average (squared_errors y_original y_pred_lr_original)).





(** The twelve prices of the documented scenario and a series from 1 to 6. *)
Definition serie_exemplo : list float := [10; 12; 11; 13; 15; 14; 16; 18; 17; 19; 20; 21].

Definition um_a_seis : list float := [1; 2; 3; 4; 5; 1; 2; 3; 4; 5; 1; 6].

Definition doze : float := 12.

End b64.

Section Previsoes.

(** The state of the random number generators that Keras draws from, and the
    three training procedures.  Building and training a network consumes
    random numbers; the least-squares fit takes none. *)
Variable G : Type.
Variable lstm_fit : G -> ndarray -> ndarray -> keras.Sequential * G.
Variable mlp_fit : G -> ndarray -> ndarray -> keras.Sequential * G.
Variable lr_fit : ndarray -> ndarray -> sklearn.LinearRegression.

(** The mutable state of the process: the scaler object (without attributes
    until it is fitted), the random generators, and the record of the calls
    made on the scaler. *)
Record estado : Type := mk_estado {
  scaler : option sklearn.MinMaxScaler;
  gerador : G;
  chamadas : list chamada
}.

Definition M (A : Type) : Type := estado -> resultado (A * estado).

Definition ret {A : Type} (a : A) : M A := fun st => Ok (a, st).

Definition bind {A B : Type} (c : M A) (k : A -> M B) : M B :=
  fun st =>
    match c st with
    | Ok (a, st') => k a st'
    | Erro e => Erro e
    end.

Definition lift {A : Type} (r : resultado A) : M A :=
  fun st =>
    match r with
    | Ok a => Ok (a, st)
    | Erro e => Erro e
    end.

Notation "x <- c ;; k" := (bind c (fun x => k))
  (at level 61, c at next level, right associativity).

(** [scaler.fit_transform(a)]: validates the input, replaces the attributes
    of the scaler and returns the transformed array. *)
Definition fit_transform (a : ndarray) : M ndarray :=
  fun st =>
    match sklearn.check_array a with
    | Erro e => Erro e
    | Ok _ =>
        let s := sklearn.fit (data a) in
        Ok ({| shape := shape a; data := map (sklearn.transform s) (data a) |},
            {| scaler := Some s;
               gerador := gerador st;
               chamadas := chamadas st ++ [FitTransform a] |})
    end.

(** [scaler.inverse_transform(a)]: reads the attributes, changes none. *)
Definition inverse_transform (a : ndarray) : M ndarray :=
  fun st =>
    match scaler st with
    | None => Erro NotFittedError
    | Some s =>
        match sklearn.check_array a with
        | Erro e => Erro e
        | Ok _ =>
            Ok ({| shape := shape a; data := map (sklearn.inverse_transform s) (data a) |},
                {| scaler := scaler st;
                   gerador := gerador st;
                   chamadas := chamadas st ++ [InverseTransform a] |})
        end
    end.

(** Building, compiling and fitting a network: draws from the generators. *)
Definition keras_fit (f : G -> ndarray -> ndarray -> keras.Sequential * G)
  (inputs targets : ndarray) : M keras.Sequential :=
  fun st =>
    let r := f (gerador st) inputs targets in
    Ok (fst r, {| scaler := scaler st; gerador := snd r; chamadas := chamadas st |}).

(** The names the module defines once it is imported. *)
Record modulo : Type := mk_modulo {
  dados_scaled : ndarray;
  X : ndarray;
  y : ndarray;
  X_lstm : ndarray;
  model_lstm : keras.Sequential;
  y_original : ndarray;
  rmse_lstm_reais : R;
  model_mlp : keras.Sequential;
  rmse_mlp_reais : R;
  model_lr : sklearn.LinearRegression;
  rmse_lr_reais : R
}.

(** The body of the module, lines 10-68, run at import time. *)
Definition importar (dados : ndarray) : M modulo :=
  dados_scaled <- fit_transform dados ;;
  xy <- lift (janelas dados_scaled) ;;
  let X := array_of_rows (fst xy) in
  let y := array (snd xy) in
  d0 <- lift (shape_at X 0) ;;
  d1 <- lift (shape_at X 1) ;;
  X_lstm <- lift (reshape X [d0; d1; 1%nat]) ;;
  model_lstm <- keras_fit lstm_fit X_lstm y ;;
  let y_pred_lstm := keras.predict model_lstm X_lstm in
  y_pred_lstm_original <- inverse_transform y_pred_lstm ;;
  y_original <- inverse_transform (reshape_col y) ;;
  mse_lstm_reais <- lift (sklearn.mean_squared_error y_original y_pred_lstm_original) ;;
  let rmse_lstm_reais := np.sqrt mse_lstm_reais in
  model_mlp <- keras_fit mlp_fit X y ;;
  let y_pred_mlp := keras.predict model_mlp X in
  y_pred_mlp_original <- inverse_transform y_pred_mlp ;;
  mse_mlp_reais <- lift (sklearn.mean_squared_error y_original y_pred_mlp_original) ;;
  let rmse_mlp_reais := np.sqrt mse_mlp_reais in
  let model_lr := lr_fit X y in
  let y_pred_lr := sklearn.predict model_lr X in
  y_pred_lr_original <- inverse_transform (reshape_col y_pred_lr) ;;
  mse_lr_reais <- lift (sklearn.mean_squared_error y_original y_pred_lr_original) ;;
  let rmse_lr_reais := np.sqrt mse_lr_reais in
  ret {| dados_scaled := dados_scaled;
         X := X;
         y := y;
         X_lstm := X_lstm;
         model_lstm := model_lstm;
         y_original := y_original;
         rmse_lstm_reais := rmse_lstm_reais;
         model_mlp := model_mlp;
         rmse_mlp_reais := rmse_mlp_reais;
         model_lr := model_lr;
         rmse_lr_reais := rmse_lr_reais |}.

(** Lines 37-40. *)
Definition previsao_lstm (m : modulo) : M R :=
  entrada <- lift (reshape (last_rows (dados_scaled m) window) [1%nat; window; 1%nat]) ;;
  let pred := keras.predict (model_lstm m) entrada in
  r <- inverse_transform pred ;;
  lift (item2 r 0 0).

(** Lines 56-59. *)
Definition previsao_mlp (m : modulo) : M R :=
  entrada <- lift (reshape (last_rows (dados_scaled m) window) [1%nat; window]) ;;
  let pred := keras.predict (model_mlp m) entrada in
  r <- inverse_transform pred ;;
  lift (item2 r 0 0).

(** Lines 70-73. *)
Definition previsao_reg_linear (m : modulo) : M R :=
  entrada <- lift (reshape (last_rows (dados_scaled m) window) [1%nat; window]) ;;
  let pred := sklearn.predict (model_lr m) entrada in
  r <- inverse_transform (reshape_col pred) ;;
  lift (item2 r 0 0).

(** The process before the module is imported: [scaler = MinMaxScaler()]
    has no fitted attributes and no call has been made on it. *)
Definition inicial (g : G) : estado := {| scaler := None; gerador := g; chamadas := [] |}.


(** ** What the module holds after a successful import *)

(** The prices at positions [i .. i + window - 1] of a series. *)
Definition janela_em (serie : list R) (i : nat) : list R := firstn window (skipn i serie).

(** Number of training samples of a series of [n] prices. *)
Definition n_amostras (n : nat) : nat := (n - window)%nat.

Definition X_de (serie : list R) : ndarray :=
  {| shape := [n_amostras (length serie); window];
     data := concat (map (janela_em serie) (seq 0 (n_amostras (length serie)))) |}.

Definition y_de (serie : list R) : ndarray := array (skipn window serie).

Definition X_lstm_de (serie : list R) : ndarray :=
  {| shape := [n_amostras (length serie); window; 1%nat]; data := data (X_de serie) |}.

(** The historical error as the documentation words it:
    sqrt(mean((inverse(pred) - inverse(actual))^2)). *)
Fixpoint desvios (inverse : R -> R) (pred actual : list R) : list R :=
  match pred, actual with
  | p :: ps, a :: acts => (inverse p - inverse a) ^ 2 :: desvios inverse ps acts
  | _, _ => []
  end.

Definition rmse_spec (inverse : R -> R) (pred actual : list R) : R :=
  R_sqrt.sqrt (fold_right Rplus 0 (desvios inverse pred actual) / INR (length actual)).

Section Modulo_de.

Variables (g : G) (precos : list R).

Let s := sklearn.fit precos.
Let serie := map (sklearn.transform s) precos.
Let r_lstm := lstm_fit g (X_lstm_de serie) (y_de serie).
Let r_mlp := mlp_fit (snd r_lstm) (X_de serie) (y_de serie).
Let lr := lr_fit (X_de serie) (y_de serie).
Let inv := sklearn.inverse_transform s.

Definition y_original_de : ndarray :=
  {| shape := shape (reshape_col (y_de serie)); data := map inv (data (y_de serie)) |}.

Definition rmse_de (pred : list R) : R :=
  np.sqrt (sklearn.average (sklearn.squared_errors (data y_original_de) (map inv pred))).

Definition modulo_de : modulo :=
  {| dados_scaled := {| shape := [length precos; 1%nat]; data := serie |};
     X := X_de serie;
     y := y_de serie;
     X_lstm := X_lstm_de serie;
     model_lstm := fst r_lstm;
     y_original := y_original_de;
     rmse_lstm_reais := rmse_de (map (fst r_lstm) (samples (X_lstm_de serie)));
     model_mlp := fst r_mlp;
     rmse_mlp_reais := rmse_de (map (fst r_mlp) (samples (X_de serie)));
     model_lr := lr;
     rmse_lr_reais := rmse_de (map (sklearn.decision lr) (samples (X_de serie))) |}.

Definition estado_de : estado :=
  {| scaler := Some s;
     gerador := snd r_mlp;
     chamadas :=
       [FitTransform (coluna precos);
        InverseTransform (keras.predict (fst r_lstm) (X_lstm_de serie));
        InverseTransform (reshape_col (y_de serie));
        InverseTransform (keras.predict (fst r_mlp) (X_de serie));
        InverseTransform (reshape_col (sklearn.predict lr (X_de serie)))] |}.

End Modulo_de.

(** Line 148 of app.py: the three errors, in the order of [app.modelos]. *)
Definition erros (m : modulo) : list R :=
  [rmse_lstm_reais m; rmse_mlp_reais m; rmse_lr_reais m].

(** The calls the dashboard makes once the module is imported. *)
Inductive operacao : Type :=
| PrevisaoLstm
| PrevisaoMlp
| PrevisaoRegLinear.

Definition executar (m : modulo) (op : operacao) : M R :=
  match op with
  | PrevisaoLstm => previsao_lstm m
  | PrevisaoMlp => previsao_mlp m
  | PrevisaoRegLinear => previsao_reg_linear m
  end.

Fixpoint executar_todas (m : modulo) (ops : list operacao) : M (list R) :=
  match ops with
  | [] => ret []
  | op :: resto =>
      v <- executar m op ;;
      vs <- executar_todas m resto ;;
      ret (v :: vs)
  end.

(** How many times the scaler was fitted, from the record of its calls. *)
Definition n_fits (l : list chamada) : nat := length (filter e_fit l).

(** ** Lists and arrays *)

Lemma map_nth_seq (l : list R) (d : R) :
  forall k lo, (lo + k <= length l)%nat ->
    map (fun r => nth r l d) (seq lo k) = firstn k (skipn lo l).
Proof.
  induction k as [|k IH]; intros lo Hle; [reflexivity|].
  simpl seq. simpl map.
  rewrite IH by lia.
  assert (Hlt : (lo < length l)%nat) by lia.
  revert Hlt. clear. revert lo.
  induction l as [|a l IHl]; intros lo Hlt; simpl in Hlt; [lia|].
  destruct lo as [|lo]; [reflexivity|].
  simpl. apply IHl. lia.
Qed.

Lemma seq_desloca {B : Type} (f : nat -> B) (k lo : nat) :
  map f (seq lo k) = map (fun i => f (i + lo)%nat) (seq 0 k).
Proof.
  revert lo. induction k as [|k IH]; intro lo; [reflexivity|].
  cbn [seq map]. f_equal.
  rewrite (IH (S lo)), <- seq_shift, map_map.
  apply map_ext. intro i. f_equal. lia.
Qed.

Lemma length_janela_em (serie : list R) (i : nat) :
  (i + window <= length serie)%nat -> length (janela_em serie i) = window.
Proof.
  intro H. unfold janela_em. rewrite length_firstn, length_skipn. lia.
Qed.

Lemma chunks_concat (k : nat) (rows : list (list R)) :
  Forall (fun r => length r = k) rows ->
  chunks k (length rows) (concat rows) = rows.
Proof.
  induction 1 as [|r rows Hr _ IH]; [reflexivity|].
  simpl. subst k.
  rewrite firstn_app, Nat.sub_diag, firstn_all, app_nil_r. simpl.
  rewrite skipn_app, Nat.sub_diag, skipn_all. simpl. now rewrite IH.
Qed.

Lemma janelas_regulares (serie : list R) :
  Forall (fun r => length r = window)
         (map (janela_em serie) (seq 0 (n_amostras (length serie)))).
Proof.
  apply Forall_forall. intros r Hin.
  apply in_map_iff in Hin. destruct Hin as (i & <- & Hi).
  apply in_seq in Hi. apply length_janela_em. unfold n_amostras in Hi. lia.
Qed.

Lemma samples_X_de (serie : list R) :
  samples (X_de serie) = map (janela_em serie) (seq 0 (n_amostras (length serie))).
Proof.
  unfold samples, X_de, len. cbn [shape data tl hd size_of fold_right].
  rewrite Nat.mul_1_r.
  set (rows := map _ _).
  replace (n_amostras (length serie)) with (length rows)
    by (unfold rows; now rewrite length_map, length_seq).
  apply chunks_concat, janelas_regulares.
Qed.

Lemma samples_X_lstm_de (serie : list R) :
  samples (X_lstm_de serie) = samples (X_de serie).
Proof.
  unfold samples, X_lstm_de, X_de, len. cbn [shape data tl hd size_of fold_right].
  now rewrite !Nat.mul_1_r.
Qed.

Lemma nth_error_concat_janelas (serie : list R) (i j : nat) :
  (i < n_amostras (length serie))%nat -> (j < window)%nat ->
  nth_error (data (X_de serie)) (i * window + j) = nth_error serie (i + j).
Proof.
  intros Hi Hj. unfold X_de. cbn [data].
  assert (Hgen : forall k i' lo, (lo + k + window <= length serie)%nat -> (i' < k)%nat ->
            nth_error (concat (map (janela_em serie) (seq lo k))) (i' * window + j)
            = nth_error serie (lo + i' + j)).
  { clear i Hi. induction k as [|k IH]; intros i lo Hle Hik; [lia|].
    simpl seq. simpl map. simpl concat.
    destruct i as [|i].
    - rewrite nth_error_app1 by (rewrite length_janela_em; lia).
      unfold janela_em. rewrite nth_error_firstn.
      destruct (Nat.ltb_spec (0 * window + j) window) as [_|Hge]; [|lia].
      rewrite nth_error_skipn. f_equal. lia.
    - rewrite nth_error_app2 by (rewrite length_janela_em; lia).
      rewrite length_janela_em by lia.
      replace (S i * window + j - window)%nat with (i * window + j)%nat by lia.
      rewrite (IH i (S lo)) by lia. f_equal. lia. }
  unfold n_amostras in *.
  rewrite Hgen by lia. reflexivity.
Qed.

Lemma skipn_como_seq (l : list R) (lo : nat) :
  map (fun i => nth i l 0) (seq lo (length l - lo)) = skipn lo l.
Proof.
  destruct (Nat.le_gt_cases lo (length l)) as [Hle|Hgt].
  - rewrite map_nth_seq by lia.
    apply firstn_all2. rewrite length_skipn. lia.
  - replace (length l - lo)%nat with 0%nat by lia.
    rewrite skipn_all2 by lia. reflexivity.
Qed.

(** ** The loop of lines 16-18 *)

Lemma for_passo (ds : list R) :
  forall k lo acc, (window <= lo)%nat -> (lo + k <= length ds)%nat ->
    for_ (seq lo k) (passo {| shape := [length ds; 1%nat]; data := ds |}) acc
    = Ok (fst acc ++ map (fun i => array (janela_em ds (i - window))) (seq lo k),
          snd acc ++ map (fun i => nth i ds 0) (seq lo k)).
Proof.
  induction k as [|k IH]; intros lo acc Hw Hle.
  - cbn [seq map for_]. rewrite !app_nil_r. now destruct acc.
  - cbn [seq map for_].
    assert (Hjan : slice_col {| shape := [length ds; 1%nat]; data := ds |} (lo - window) lo 0
                   = Ok (array (janela_em ds (lo - window)))).
    { unfold slice_col. cbn [shape data]. cbn [Nat.ltb Nat.leb].
      rewrite !Nat.min_l by lia.
      replace (lo - (lo - window))%nat with window by lia.
      f_equal. f_equal. unfold janela_em.
      rewrite <- map_nth_seq with (d := 0) by lia.
      apply map_ext. intro r. f_equal. lia. }
    assert (Halvo : item2 {| shape := [length ds; 1%nat]; data := ds |} lo 0 = Ok (nth lo ds 0)).
    { unfold item2. cbn [shape data].
      destruct (Nat.ltb_spec lo (length ds)) as [Hlt|Hge]; [|lia].
      cbn [andb Nat.ltb Nat.leb]. unfold lookup.
      replace (lo * 1 + 0)%nat with lo by lia.
      rewrite (nth_error_nth' ds 0 Hlt). reflexivity. }
    unfold passo at 1. rewrite Hjan, Halvo. cbn [bind_r fst snd].
    rewrite IH by lia. cbn [fst snd]. now rewrite <- !app_assoc.
Qed.

Lemma janelas_ok (ds : list R) :
  janelas {| shape := [length ds; 1%nat]; data := ds |}
  = Ok (map (fun i => array (janela_em ds i)) (seq 0 (n_amostras (length ds))),
        skipn window ds).
Proof.
  unfold janelas, range, len. cbn [shape hd].
  destruct (Nat.le_gt_cases window (length ds)) as [Hle|Hgt].
  - rewrite for_passo by lia. cbn [fst snd app]. f_equal. f_equal.
    + rewrite seq_desloca. apply map_ext. intro i. unfold n_amostras. do 2 f_equal. lia.
    + apply skipn_como_seq.
  - unfold n_amostras. replace (length ds - window)%nat with 0%nat by lia.
    cbn [seq for_ map]. now rewrite skipn_all2 by lia.
Qed.

Lemma array_of_rows_janelas (ds : list R) :
  (window < length ds)%nat ->
  array_of_rows (map (fun i => array (janela_em ds i)) (seq 0 (n_amostras (length ds))))
  = X_de ds.
Proof.
  intro Hlt. unfold X_de.
  remember (n_amostras (length ds)) as k eqn:Hk.
  destruct k as [|m]; [unfold n_amostras in Hk; lia|].
  rewrite <- (map_map (janela_em ds) array).
  remember (map (janela_em ds) (seq 0 (S m))) as rows eqn:Hrows.
  assert (Hlen : length rows = S m) by (subst rows; now rewrite length_map, length_seq).
  assert (Hreg : Forall (fun r => length r = window) rows).
  { subst rows. rewrite Hk. apply janelas_regulares. }
  destruct rows as [|r rows]; [discriminate|].
  cbn [map array_of_rows]. f_equal.
  - cbn [array shape]. inversion Hreg as [|? ? Hr _]; subst.
    rewrite Hr. f_equal. cbn [length] in *. now rewrite length_map.
  - change (data (array r) :: map data (map array rows)) with (map data (map array (r :: rows))).
    rewrite map_map. cbn [array data]. now rewrite map_id.
Qed.

(** ** Running the script *)

Lemma bind_ok {A B : Type} (c : M A) (k : A -> M B) (st st' : estado) (a : A) :
  c st = Ok (a, st') -> bind c k st = k a st'.
Proof. intro H. unfold bind. now rewrite H. Qed.

Lemma fit_transform_ok (precos : list R) (st : estado) :
  precos <> [] ->
  fit_transform (coluna precos) st
  = Ok ({| shape := [length precos; 1%nat];
           data := map (sklearn.transform (sklearn.fit precos)) precos |},
        {| scaler := Some (sklearn.fit precos);
           gerador := gerador st;
           chamadas := chamadas st ++ [FitTransform (coluna precos)] |}).
Proof.
  intro Hne. destruct precos as [|p ps]; [contradiction|]. reflexivity.
Qed.

Lemma inverse_transform_ok (a : ndarray) (st : estado) (s : sklearn.MinMaxScaler) (n : nat) :
  scaler st = Some s -> shape a = [S n; 1%nat] ->
  inverse_transform a st
  = Ok ({| shape := shape a; data := map (sklearn.inverse_transform s) (data a) |},
        {| scaler := Some s;
           gerador := gerador st;
           chamadas := chamadas st ++ [InverseTransform a] |}).
Proof.
  intros Hs Hsh. unfold inverse_transform, sklearn.check_array.
  rewrite Hs, Hsh. reflexivity.
Qed.

Lemma eqb_shape_refl (sh : list nat) : sklearn.eqb_shape sh sh = true.
Proof.
  induction sh as [|d sh IH]; [reflexivity|].
  cbn [sklearn.eqb_shape]. now rewrite Nat.eqb_refl, IH.
Qed.

Lemma bind_lift_ok {A B : Type} (a : A) (k : A -> M B) (st : estado) :
  bind (lift (Ok a)) k st = k a st.
Proof. reflexivity. Qed.

Lemma bind_keras_fit {B : Type} (f : G -> ndarray -> ndarray -> keras.Sequential * G)
  (a b : ndarray) (k : keras.Sequential -> M B) (st : estado) :
  bind (keras_fit f a b) k st
  = k (fst (f (gerador st) a b))
      {| scaler := scaler st; gerador := snd (f (gerador st) a b); chamadas := chamadas st |}.
Proof. reflexivity. Qed.

Lemma reshape_X_de (serie : list R) :
  reshape (X_de serie) [n_amostras (length serie); window; 1%nat] = Ok (X_lstm_de serie).
Proof.
  unfold reshape, X_de, X_lstm_de. cbn [shape data size_of fold_right].
  rewrite !Nat.mul_1_r, Nat.eqb_refl. reflexivity.
Qed.

Lemma shape_y_original (serie : list R) :
  shape (reshape_col (y_de serie)) = [n_amostras (length serie); 1%nat].
Proof.
  unfold reshape_col, y_de, array, n_amostras. cbn [shape size_of fold_right].
  now rewrite Nat.mul_1_r, length_skipn.
Qed.

Lemma mean_squared_error_ok (yt yp : ndarray) (n : nat) :
  shape yt = [S n; 1%nat] -> shape yp = [S n; 1%nat] ->
  sklearn.mean_squared_error yt yp
  = Ok (sklearn.average (sklearn.squared_errors (data yt) (data yp))).
Proof.
  intros Ht Hp. unfold sklearn.mean_squared_error, len.
  rewrite Ht, Hp. cbn [sklearn.as_2d hd].
  rewrite eqb_shape_refl. reflexivity.
Qed.

Lemma importar_ok (g : G) (precos : list R) :
  (window < length precos)%nat ->
  importar (coluna precos) (inicial g) = Ok (modulo_de g precos, estado_de g precos).
Proof.
  intro Hlen.
  assert (Hne : precos <> []) by (intro; subst; simpl in Hlen; lia).
  set (s := sklearn.fit precos).
  set (serie := map (sklearn.transform s) precos).
  assert (Hserie : length serie = length precos) by (unfold serie; apply length_map).
  assert (Hk : exists m, n_amostras (length serie) = S m).
  { exists (length precos - window - 1)%nat. unfold n_amostras. lia. }
  destruct Hk as [m Hm].
  assert (Hyo : shape (reshape_col (y_de serie)) = [S m; 1%nat])
    by (now rewrite shape_y_original, Hm).
  assert (Hpl : forall f, shape (keras.predict f (X_lstm_de serie)) = [S m; 1%nat])
    by (intro f; cbn; now rewrite Hm).
  assert (Hpm : forall f, shape (keras.predict f (X_de serie)) = [S m; 1%nat])
    by (intro f; cbn; now rewrite Hm).
  assert (Hplr : forall f, shape (reshape_col (sklearn.predict f (X_de serie))) = [S m; 1%nat]).
  { intro f. unfold reshape_col, sklearn.predict, array. cbn [shape size_of fold_right].
    rewrite length_map, samples_X_de, length_map, length_seq, Nat.mul_1_r. now rewrite Hm. }
  unfold importar.
  rewrite (bind_ok _ _ _ _ _ (fit_transform_ok precos (inicial g) Hne)).
  fold s. fold serie. rewrite <- Hserie at 1.
  rewrite janelas_ok. rewrite bind_lift_ok. cbn [fst snd].
  rewrite array_of_rows_janelas by lia.
  change (shape_at (X_de serie) 0) with (@Ok nat (n_amostras (length serie))).
  rewrite bind_lift_ok.
  change (shape_at (X_de serie) 1) with (@Ok nat window).
  rewrite bind_lift_ok.
  rewrite reshape_X_de, bind_lift_ok.
  rewrite bind_keras_fit.
  erewrite bind_ok by (eapply inverse_transform_ok; [reflexivity | apply Hpl]).
  erewrite bind_ok by (eapply inverse_transform_ok; [reflexivity | apply Hyo]).
  erewrite mean_squared_error_ok by (cbn [shape]; first [apply Hyo | apply Hpl]).
  rewrite bind_lift_ok.
  rewrite bind_keras_fit.
  erewrite bind_ok by (eapply inverse_transform_ok; [reflexivity | apply Hpm]).
  erewrite mean_squared_error_ok by (cbn [shape]; first [apply Hyo | apply Hpm]).
  rewrite bind_lift_ok.
  erewrite bind_ok by (eapply inverse_transform_ok; [reflexivity | apply Hplr]).
  erewrite mean_squared_error_ok by (cbn [shape]; first [apply Hyo | apply Hplr]).
  rewrite bind_lift_ok.
  reflexivity.
Qed.

(** ** The three [previsao_*] functions *)

Lemma entrada_ok (serie : list R) (sh : list nat) :
  (window <= length serie)%nat -> size_of sh = window ->
  reshape (last_rows {| shape := [length serie; 1%nat]; data := serie |} window) sh
  = Ok {| shape := sh; data := skipn (length serie - window) serie |}.
Proof.
  intros Hle Hsh. unfold reshape, last_rows. cbn [shape data size_of fold_right].
  fold (size_of sh). rewrite Hsh.
  replace ((length serie - (length serie - window)) * (1 * 1))%nat with window by lia.
  rewrite Nat.eqb_refl. do 2 f_equal. f_equal. lia.
Qed.

Lemma samples_uma_linha (sh : list nat) (l : list R) :
  size_of sh = length l -> samples {| shape := 1%nat :: sh; data := l |} = [l].
Proof.
  intro H. unfold samples, len. cbn [shape data tl hd chunks].
  now rewrite H, firstn_all.
Qed.

Lemma length_ultimos (serie : list R) :
  (window <= length serie)%nat -> length (skipn (length serie - window) serie) = window.
Proof. intro H. rewrite length_skipn. lia. Qed.

Section Previsao_ok.

Variables (m : modulo) (serie : list R) (s : sklearn.MinMaxScaler) (st : estado).
Hypothesis Hds : dados_scaled m = {| shape := [length serie; 1%nat]; data := serie |}.
Hypothesis Hlen : (window <= length serie)%nat.
Hypothesis Hsc : scaler st = Some s.

Let ultimos := skipn (length serie - window) serie.

Lemma previsao_lstm_ok :
  exists a,
    previsao_lstm m st
    = Ok (sklearn.inverse_transform s (model_lstm m ultimos),
          {| scaler := Some s; gerador := gerador st;
             chamadas := chamadas st ++ [InverseTransform a] |}).
Proof.
  unfold previsao_lstm. rewrite Hds.
  rewrite entrada_ok by (auto; cbn; lia).
  rewrite bind_lift_ok.
  eexists.
  erewrite bind_ok by (eapply inverse_transform_ok with (n := 0%nat); [exact Hsc | reflexivity]).
  unfold keras.predict. cbn [data shape].
  rewrite samples_uma_linha by (cbn; rewrite length_ultimos; auto; lia).
  reflexivity.
Qed.

Lemma previsao_mlp_ok :
  exists a,
    previsao_mlp m st
    = Ok (sklearn.inverse_transform s (model_mlp m ultimos),
          {| scaler := Some s; gerador := gerador st;
             chamadas := chamadas st ++ [InverseTransform a] |}).
Proof.
  unfold previsao_mlp. rewrite Hds.
  rewrite entrada_ok by (auto; cbn; lia).
  rewrite bind_lift_ok.
  eexists.
  erewrite bind_ok by (eapply inverse_transform_ok with (n := 0%nat); [exact Hsc | reflexivity]).
  unfold keras.predict. cbn [data shape].
  rewrite samples_uma_linha by (cbn; rewrite length_ultimos; auto; lia).
  reflexivity.
Qed.

Lemma previsao_reg_linear_ok :
  exists a,
    previsao_reg_linear m st
    = Ok (sklearn.inverse_transform s (sklearn.decision (model_lr m) ultimos),
          {| scaler := Some s; gerador := gerador st;
             chamadas := chamadas st ++ [InverseTransform a] |}).
Proof.
  unfold previsao_reg_linear. rewrite Hds.
  rewrite entrada_ok by (auto; cbn; lia).
  rewrite bind_lift_ok.
  assert (Hsam : samples {| shape := [1%nat; window]; data := ultimos |} = [ultimos])
    by (apply samples_uma_linha; cbn; unfold ultimos; rewrite length_ultimos; auto; lia).
  unfold ultimos in *.
  eexists.
  erewrite bind_ok.
  2:{ eapply inverse_transform_ok with (n := 0%nat); [exact Hsc|].
      unfold reshape_col, sklearn.predict. now rewrite Hsam. }
  unfold reshape_col, sklearn.predict. cbn [data shape array].
  rewrite Hsam. reflexivity.
Qed.

End Previsao_ok.

(** ** The scaler *)

Lemma fold_left_Rmin_le (l : list R) :
  forall a, fold_left Rmin l a <= a /\ (forall x, In x l -> fold_left Rmin l a <= x).
Proof.
  induction l as [|b l IH]; intro a; cbn [fold_left].
  - split; [lra | intros x []].
  - destruct (IH (Rmin a b)) as [H1 H2].
    pose proof (Rmin_l a b). pose proof (Rmin_r a b).
    split; [lra|].
    intros x [<-|Hin]; [lra | now apply H2].
Qed.

Lemma fold_left_Rmin_in (l : list R) :
  forall a, fold_left Rmin l a = a \/ In (fold_left Rmin l a) l.
Proof.
  induction l as [|b l IH]; intro a; cbn [fold_left]; [now left|].
  destruct (IH (Rmin a b)) as [H|H].
  - rewrite H. apply Rmin_case; [now left | right; now left].
  - right. now right.
Qed.

Lemma fold_left_Rmax_le (l : list R) :
  forall a, a <= fold_left Rmax l a /\ (forall x, In x l -> x <= fold_left Rmax l a).
Proof.
  induction l as [|b l IH]; intro a; cbn [fold_left].
  - split; [lra | intros x []].
  - destruct (IH (Rmax a b)) as [H1 H2].
    pose proof (Rmax_l a b). pose proof (Rmax_r a b).
    split; [lra|].
    intros x [<-|Hin]; [lra | now apply H2].
Qed.

Lemma fold_left_Rmax_in (l : list R) :
  forall a, fold_left Rmax l a = a \/ In (fold_left Rmax l a) l.
Proof.
  induction l as [|b l IH]; intro a; cbn [fold_left]; [now left|].
  destruct (IH (Rmax a b)) as [H|H].
  - rewrite H. apply Rmax_case; [now left | right; now left].
  - right. now right.
Qed.

Lemma nanmin_le (col : list R) (x : R) : In x col -> sklearn.nanmin col <= x.
Proof.
  destruct col as [|a l]; [intros []|]. cbn [sklearn.nanmin].
  destruct (fold_left_Rmin_le l a) as [H1 H2].
  intros [<-|Hin]; [exact H1 | now apply H2].
Qed.

Lemma nanmax_ge (col : list R) (x : R) : In x col -> x <= sklearn.nanmax col.
Proof.
  destruct col as [|a l]; [intros []|]. cbn [sklearn.nanmax].
  destruct (fold_left_Rmax_le l a) as [H1 H2].
  intros [<-|Hin]; [exact H1 | now apply H2].
Qed.

Lemma nanmin_in (col : list R) : col <> [] -> In (sklearn.nanmin col) col.
Proof.
  destruct col as [|a l]; [contradiction|]. intros _. cbn [sklearn.nanmin].
  destruct (fold_left_Rmin_in l a) as [H|H]; [rewrite H; now left | now right].
Qed.

Lemma nanmax_in (col : list R) : col <> [] -> In (sklearn.nanmax col) col.
Proof.
  destruct col as [|a l]; [contradiction|]. intros _. cbn [sklearn.nanmax].
  destruct (fold_left_Rmax_in l a) as [H|H]; [rewrite H; now left | now right].
Qed.

Lemma eps_pos : 0 < sklearn.eps.
Proof. unfold sklearn.eps. apply Rinv_0_lt_compat, pow_lt. lra. Qed.

Lemma handle_zeros_pos (r : R) : 0 < sklearn.handle_zeros_in_scale r.
Proof.
  unfold sklearn.handle_zeros_in_scale. pose proof eps_pos.
  destruct (Rlt_dec r (10 * sklearn.eps)); lra.
Qed.

Lemma inverse_transform_transform (s : sklearn.MinMaxScaler) (x : R) :
  sklearn.scale_ s <> 0 -> sklearn.inverse_transform s (sklearn.transform s x) = x.
Proof.
  intro H. unfold sklearn.inverse_transform, sklearn.transform. now field.
Qed.

Lemma transform_fit (col : list R) (x : R) :
  sklearn.transform (sklearn.fit col) x
  = (x - sklearn.nanmin col)
    / sklearn.handle_zeros_in_scale (sklearn.nanmax col - sklearn.nanmin col).
Proof.
  unfold sklearn.transform. cbn [sklearn.fit sklearn.scale_ sklearn.min_].
  pose proof (handle_zeros_pos (sklearn.nanmax col - sklearn.nanmin col)).
  field. lra.
Qed.

Lemma transform_do_minimo (col : list R) :
  sklearn.transform (sklearn.fit col) (sklearn.nanmin col) = 0.
Proof.
  rewrite transform_fit. unfold Rdiv. rewrite Rminus_diag. apply Rmult_0_l.
Qed.

(** A constant column: the range is zero, the scale is 1. *)
Lemma nanmin_repeat (c : R) (n : nat) : sklearn.nanmin (repeat c (S n)) = c.
Proof.
  apply Rle_antisym.
  - apply nanmin_le. now left.
  - pose proof (nanmin_in (repeat c (S n))) as H.
    apply repeat_spec in H; [rewrite H; lra | discriminate].
Qed.

Lemma nanmax_repeat (c : R) (n : nat) : sklearn.nanmax (repeat c (S n)) = c.
Proof.
  apply Rle_antisym.
  - pose proof (nanmax_in (repeat c (S n))) as H.
    apply repeat_spec in H; [rewrite H; lra | discriminate].
  - apply nanmax_ge. now left.
Qed.

Lemma scale_repeat (c : R) (n : nat) : sklearn.scale_ (sklearn.fit (repeat c (S n))) = 1.
Proof.
  unfold sklearn.fit. cbv zeta. cbn [sklearn.scale_].
  rewrite nanmin_repeat, nanmax_repeat, Rminus_diag.
  unfold sklearn.handle_zeros_in_scale. pose proof eps_pos.
  destruct (Rlt_dec 0 (10 * sklearn.eps)); [field | lra].
Qed.

Lemma transform_repeat (c : R) (n : nat) :
  sklearn.transform (sklearn.fit (repeat c (S n))) c = 0.
Proof.
  rewrite <- (nanmin_repeat c n) at 2. apply transform_do_minimo.
Qed.

(** ** The squared-error metric *)

Lemma squared_errors_desvios (inverse : R -> R) (actual pred : list R) :
  sklearn.squared_errors (map inverse actual) (map inverse pred)
  = desvios inverse pred actual.
Proof.
  revert pred. induction actual as [|a actual IH]; intros [|p pred]; try reflexivity.
  cbn [map sklearn.squared_errors desvios]. rewrite IH. f_equal. ring.
Qed.

Lemma length_desvios (inverse : R -> R) (pred actual : list R) :
  length pred = length actual -> length (desvios inverse pred actual) = length actual.
Proof.
  revert actual. induction pred as [|p pred IH]; intros [|a actual] H; try discriminate.
  - reflexivity.
  - cbn [desvios length]. f_equal. apply IH. now injection H.
Qed.

Lemma rmse_de_spec (precos pred : list R) :
  length pred = n_amostras (length precos) ->
  rmse_de precos pred
  = rmse_spec (sklearn.inverse_transform (sklearn.fit precos)) pred
      (skipn window (map (sklearn.transform (sklearn.fit precos)) precos)).
Proof.
  intro Hlen. unfold rmse_de, rmse_spec, np.sqrt, sklearn.average, y_original_de.
  cbn [data y_de array].
  rewrite squared_errors_desvios, length_desvios; [reflexivity|].
  rewrite length_skipn, length_map. exact Hlen.
Qed.

(** ** Reading the arrays of the module *)

Lemma item2_X_de (serie : list R) (i j : nat) :
  (i < n_amostras (length serie))%nat -> (j < window)%nat ->
  item2 (X_de serie) i j = lookup serie (i + j).
Proof.
  intros Hi Hj. unfold item2. cbn [X_de shape].
  destruct (Nat.ltb_spec i (n_amostras (length serie))) as [_|]; [|lia].
  destruct (Nat.ltb_spec j window) as [_|]; [|lia].
  cbn [andb]. unfold lookup. now rewrite nth_error_concat_janelas.
Qed.

Lemma item1_y_de (serie : list R) (i : nat) :
  (i < n_amostras (length serie))%nat ->
  item1 (y_de serie) i = lookup serie (i + window).
Proof.
  intro Hi. unfold item1, y_de, array. cbn [shape data].
  rewrite length_skipn. fold (n_amostras (length serie)).
  destruct (Nat.ltb_spec i (n_amostras (length serie))) as [_|]; [|lia].
  unfold lookup. rewrite nth_error_skipn. now rewrite Nat.add_comm.
Qed.

Lemma item1_y_de_fora (serie : list R) (i : nat) :
  (n_amostras (length serie) <= i)%nat -> item1 (y_de serie) i = Erro IndexError.
Proof.
  intro Hi. unfold item1, y_de, array. cbn [shape data].
  rewrite length_skipn. fold (n_amostras (length serie)).
  destruct (Nat.ltb_spec i (n_amostras (length serie))) as [|_]; [lia|]. reflexivity.
Qed.

Lemma item2_X_de_fora (serie : list R) (i j : nat) :
  (n_amostras (length serie) <= i)%nat -> item2 (X_de serie) i j = Erro IndexError.
Proof.
  intro Hi. unfold item2. cbn [X_de shape].
  destruct (Nat.ltb_spec i (n_amostras (length serie))) as [|_]; [lia|]. reflexivity.
Qed.

Lemma lookup_map (f : R -> R) (l : list R) (k : nat) (p : R) :
  nth_error l k = Some p -> lookup (map f l) k = Ok (f p).
Proof. intro H. unfold lookup. now rewrite (map_nth_error f _ _ H). Qed.

Lemma nth_error_dentro (l : list R) (k : nat) :
  (k < length l)%nat -> exists p, nth_error l k = Some p.
Proof.
  intro H. destruct (nth_error l k) as [p|] eqn:E; [now exists p|].
  apply nth_error_None in E. lia.
Qed.

Lemma item3_X_lstm_de (serie : list R) (i j : nat) :
  item3 (X_lstm_de serie) i j 0 = item2 (X_de serie) i j.
Proof.
  unfold item3, item2. cbn [X_lstm_de X_de shape data].
  cbn [Nat.ltb Nat.leb]. rewrite andb_true_r.
  now rewrite Nat.mul_1_r, Nat.add_0_r.
Qed.

(** ** The claims *)

(** C1: for a series of more than [window] prices the preparation yields
    exactly [len - window] (window, target) pairs; window [i] holds the
    normalized prices at positions [i .. i + window - 1], in order, and
    target [i] is the normalized price at position [i + window]. *)
Theorem janelas_deslizantes (g : G) (precos : list R) :
  (window < length precos)%nat ->
  exists m st s,
    importar (coluna precos) (inicial g) = Ok (m, st) /\
    scaler st = Some s /\
    shape (X m) = [(length precos - window)%nat; window] /\
    shape (y m) = [(length precos - window)%nat] /\
    (forall i, (i < length precos - window)%nat ->
       (forall j, (j < window)%nat ->
          exists p, nth_error precos (i + j) = Some p /\
                    item2 (X m) i j = Ok (sklearn.transform s p)) /\
       (exists p, nth_error precos (i + window) = Some p /\
                  item1 (y m) i = Ok (sklearn.transform s p))) /\
    (forall i, (length precos - window <= i)%nat ->
       (forall j, item2 (X m) i j = Erro IndexError) /\
       item1 (y m) i = Erro IndexError).
Proof.
  intro Hlen.
  exists (modulo_de g precos), (estado_de g precos), (sklearn.fit precos).
  set (s := sklearn.fit precos).
  set (serie := map (sklearn.transform s) precos).
  assert (Hserie : length serie = length precos) by apply length_map.
  split; [now apply importar_ok|].
  split; [reflexivity|].
  cbn [modulo_de X y]. fold s. fold serie.
  split; [cbn [X_de shape]; unfold n_amostras; now rewrite Hserie|].
  split; [cbn [y_de array shape]; now rewrite length_skipn, Hserie|].
  split.
  - intros i Hi. split.
    + intros j Hj.
      destruct (nth_error_dentro precos (i + j)) as [p Hp]; [lia|].
      exists p. split; [exact Hp|].
      rewrite item2_X_de by (unfold n_amostras; lia).
      now apply lookup_map.
    + destruct (nth_error_dentro precos (i + window)) as [p Hp]; [lia|].
      exists p. split; [exact Hp|].
      rewrite item1_y_de by (unfold n_amostras; lia).
      now apply lookup_map.
  - intros i Hi. split.
    + intro j. apply item2_X_de_fora. unfold n_amostras. lia.
    + apply item1_y_de_fora. unfold n_amostras. lia.
Qed.

(** C10: the tensor given to the LSTM is a reshape of the window matrix:
    same buffer, [X_lstm[i][j][0]] equal to [X[i][j]] at every index, hence
    the same samples; the three models are fitted on these arrays and the
    same targets. *)
Theorem X_lstm_reshape_de_X (g : G) (precos : list R) :
  (window < length precos)%nat ->
  exists m st,
    importar (coluna precos) (inicial g) = Ok (m, st) /\
    shape (X m) = [(length precos - window)%nat; window] /\
    shape (X_lstm m) = [(length precos - window)%nat; window; 1%nat] /\
    data (X_lstm m) = data (X m) /\
    (forall i j, item3 (X_lstm m) i j 0 = item2 (X m) i j) /\
    samples (X_lstm m) = samples (X m) /\
    model_lstm m = fst (lstm_fit g (X_lstm m) (y m)) /\
    model_mlp m = fst (mlp_fit (snd (lstm_fit g (X_lstm m) (y m))) (X m) (y m)) /\
    model_lr m = lr_fit (X m) (y m).
Proof.
  intro Hlen.
  exists (modulo_de g precos), (estado_de g precos).
  split; [now apply importar_ok|].
  cbn [modulo_de X X_lstm y model_lstm model_mlp model_lr].
  set (serie := map (sklearn.transform (sklearn.fit precos)) precos).
  assert (Hserie : length serie = length precos) by apply length_map.
  split; [cbn [X_de shape]; unfold n_amostras; now rewrite Hserie|].
  split; [cbn [X_lstm_de shape]; unfold n_amostras; now rewrite Hserie|].
  split; [reflexivity|].
  split; [apply item3_X_lstm_de|].
  split; [apply samples_X_lstm_de|].
  repeat split.
Qed.

Lemma dados_scaled_modulo_de (g : G) (precos : list R) :
  dados_scaled (modulo_de g precos)
  = {| shape := [length (map (sklearn.transform (sklearn.fit precos)) precos); 1%nat];
       data := map (sklearn.transform (sklearn.fit precos)) precos |}.
Proof. cbn [modulo_de dados_scaled]. now rewrite length_map. Qed.

(** C2: each [previsao_*] function takes the last [window] normalized
    prices, applies its model to that one window, inverse-transforms the one
    output and returns it, a single price in original units. *)
Theorem previsao_do_proximo_preco (g : G) (precos : list R) :
  (window < length precos)%nat ->
  exists m st s antes ultimos,
    importar (coluna precos) (inicial g) = Ok (m, st) /\
    scaler st = Some s /\
    map (sklearn.transform s) precos = antes ++ ultimos /\
    length ultimos = window /\
    forall st1, scaler st1 = Some s ->
      (exists st2, previsao_lstm m st1
                   = Ok (sklearn.inverse_transform s (model_lstm m ultimos), st2)) /\
      (exists st2, previsao_mlp m st1
                   = Ok (sklearn.inverse_transform s (model_mlp m ultimos), st2)) /\
      (exists st2, previsao_reg_linear m st1
                   = Ok (sklearn.inverse_transform s (sklearn.decision (model_lr m) ultimos),
                         st2)).
Proof.
  intro Hlen.
  set (s := sklearn.fit precos).
  set (serie := map (sklearn.transform s) precos).
  assert (Hserie : length serie = length precos) by apply length_map.
  exists (modulo_de g precos), (estado_de g precos), s,
    (firstn (length serie - window) serie), (skipn (length serie - window) serie).
  split; [now apply importar_ok|].
  split; [reflexivity|].
  split; [symmetry; apply firstn_skipn|].
  split; [apply length_ultimos; lia|].
  intros st1 Hst1.
  pose proof (dados_scaled_modulo_de g precos) as Hds. fold s in Hds. fold serie in Hds.
  assert (Hw : (window <= length serie)%nat) by lia.
  split; [|split].
  - destruct (previsao_lstm_ok _ _ _ _ Hds Hw Hst1) as [a Ha]. eexists. exact Ha.
  - destruct (previsao_mlp_ok _ _ _ _ Hds Hw Hst1) as [a Ha]. eexists. exact Ha.
  - destruct (previsao_reg_linear_ok _ _ _ _ Hds Hw Hst1) as [a Ha]. eexists. exact Ha.
Qed.

Lemma length_samples_X_de (serie : list R) :
  length (samples (X_de serie)) = n_amostras (length serie).
Proof. now rewrite samples_X_de, length_map, length_seq. Qed.

(** C6: for each model the reported error is
    sqrt(mean((inverse(pred) - inverse(actual))^2)), where the predictions
    are those of the model on every training window and both predictions
    and targets go through the inverse transform first. *)
Theorem rmse_historico (g : G) (precos : list R) :
  (window < length precos)%nat ->
  exists m st s,
    importar (coluna precos) (inicial g) = Ok (m, st) /\
    scaler st = Some s /\
    samples (X m)
    = map (fun i => firstn window (skipn i (map (sklearn.transform s) precos)))
          (seq 0 (length precos - window)) /\
    samples (X_lstm m) = samples (X m) /\
    data (y m) = skipn window (map (sklearn.transform s) precos) /\
    rmse_lstm_reais m
    = rmse_spec (sklearn.inverse_transform s)
        (map (model_lstm m) (samples (X_lstm m))) (data (y m)) /\
    rmse_mlp_reais m
    = rmse_spec (sklearn.inverse_transform s)
        (map (model_mlp m) (samples (X m))) (data (y m)) /\
    rmse_lr_reais m
    = rmse_spec (sklearn.inverse_transform s)
        (map (sklearn.decision (model_lr m)) (samples (X m))) (data (y m)).
Proof.
  intro Hlen.
  exists (modulo_de g precos), (estado_de g precos), (sklearn.fit precos).
  set (s := sklearn.fit precos).
  set (serie := map (sklearn.transform s) precos).
  assert (Hserie : length serie = length precos) by apply length_map.
  split; [now apply importar_ok|].
  split; [reflexivity|].
  cbn [modulo_de X X_lstm y model_lstm model_mlp model_lr
       rmse_lstm_reais rmse_mlp_reais rmse_lr_reais].
  fold s. fold serie.
  split; [rewrite samples_X_de; unfold n_amostras; now rewrite Hserie|].
  split; [apply samples_X_lstm_de|].
  split; [reflexivity|].
  repeat split; apply rmse_de_spec;
    rewrite length_map, ?samples_X_lstm_de, length_samples_X_de;
    fold s; fold serie; now rewrite Hserie.
Qed.




Lemma n_fits_app (l1 l2 : list chamada) : n_fits (l1 ++ l2) = (n_fits l1 + n_fits l2)%nat.
Proof. unfold n_fits. now rewrite filter_app, length_app. Qed.

(** Any sequence of [previsao_*] calls runs to the end and leaves the scaler
    as it found it; the calls it adds to the record are inverse transforms. *)
Lemma executar_todas_ok (m : modulo) (serie : list R) (s : sklearn.MinMaxScaler) :
  dados_scaled m = {| shape := [length serie; 1%nat]; data := serie |} ->
  (window <= length serie)%nat ->
  forall ops st, scaler st = Some s ->
    exists vs st' novas,
      executar_todas m ops st = Ok (vs, st') /\
      length vs = length ops /\
      scaler st' = Some s /\
      chamadas st' = chamadas st ++ novas /\
      n_fits novas = 0%nat.
Proof.
  intros Hds Hw. induction ops as [|op ops IH]; intros st Hst.
  - exists [], st, []. cbn [executar_todas]. unfold ret.
    rewrite app_nil_r. repeat split. exact Hst.
  - assert (Hop : exists v a, executar m op st
                   = Ok (v, {| scaler := Some s; gerador := gerador st;
                               chamadas := chamadas st ++ [InverseTransform a] |})).
    { destruct op; cbn [executar].
      - destruct (previsao_lstm_ok m serie s st Hds Hw Hst) as [a Ha]. eauto.
      - destruct (previsao_mlp_ok m serie s st Hds Hw Hst) as [a Ha]. eauto.
      - destruct (previsao_reg_linear_ok m serie s st Hds Hw Hst) as [a Ha]. eauto. }
    destruct Hop as (v & a & Hop).
    destruct (IH _ (eq_refl : scaler {| scaler := Some s; gerador := gerador st;
                                        chamadas := chamadas st ++ [InverseTransform a] |}
                              = Some s))
      as (vs & st' & novas & Hrun & Hlen & Hsc & Hch & Hnf).
    exists (v :: vs), st', (InverseTransform a :: novas).
    cbn [executar_todas]. rewrite (bind_ok _ _ _ _ _ Hop), (bind_ok _ _ _ _ _ Hrun).
    unfold ret. split; [reflexivity|].
    split; [cbn [length]; now rewrite Hlen|].
    split; [exact Hsc|].
    split; [rewrite Hch; cbn [chamadas]; now rewrite <- app_assoc|].
    unfold n_fits in *. cbn [filter e_fit]. exact Hnf.
Qed.

(** C9: the import fits the scaler once, on the whole series, as the first
    call made on it; every later call, during the import and in any sequence
    of [previsao_*] calls after it, is an inverse transform, and the
    attributes of the scaler stay those of that one fit. *)
Theorem scaler_ajustado_uma_vez (g : G) (precos : list R) (ops : list operacao) :
  (window < length precos)%nat ->
  exists m st vs st' resto,
    importar (coluna precos) (inicial g) = Ok (m, st) /\
    scaler st = Some (sklearn.fit precos) /\
    data (dados_scaled m) = map (sklearn.transform (sklearn.fit precos)) precos /\
    executar_todas m ops st = Ok (vs, st') /\
    length vs = length ops /\
    scaler st' = Some (sklearn.fit precos) /\
    chamadas st' = FitTransform (coluna precos) :: resto /\
    n_fits resto = 0%nat /\
    n_fits (chamadas st') = 1%nat /\
    (exists k, chamadas st = FitTransform (coluna precos) :: firstn k resto).
Proof.
  intro Hlen.
  set (s := sklearn.fit precos).
  set (serie := map (sklearn.transform s) precos).
  assert (Hw : (window <= length serie)%nat) by (unfold serie; rewrite length_map; lia).
  destruct (executar_todas_ok (modulo_de g precos) serie s
              (dados_scaled_modulo_de g precos) Hw ops (estado_de g precos) eq_refl)
    as (vs & st' & novas & Hrun & Hvs & Hsc & Hch & Hnf).
  exists (modulo_de g precos), (estado_de g precos), vs, st'.
  cbn [estado_de chamadas] in Hch. fold s in Hch. fold serie in Hch.
  eexists.
  split; [now apply importar_ok|].
  split; [reflexivity|].
  split; [reflexivity|].
  split; [exact Hrun|].
  split; [exact Hvs|].
  split; [exact Hsc|].
  split; [rewrite Hch; cbn [app]; reflexivity|].
  split; [unfold n_fits in *; cbn [filter e_fit]; exact Hnf|].
  split; [rewrite Hch, n_fits_app, Hnf; reflexivity|].
  exists 4%nat. reflexivity.
Qed.

(** C3, as the script behaves: a constant series does not stop the import.
    The scaler replaces the zero range by 1, every normalized price is 0,
    the inverse transform gives the constant price back, and the module is
    imported as for any other series of more than [window] prices. *)
Theorem serie_constante_importa (g : G) (c : R) (n : nat) :
  (window < n)%nat ->
  exists m st s,
    importar (coluna (repeat c n)) (inicial g) = Ok (m, st) /\
    scaler st = Some s /\
    sklearn.data_range_ s = 0 /\
    sklearn.scale_ s = 1 /\
    data (dados_scaled m) = repeat 0 n /\
    sklearn.inverse_transform s 0 = c.
Proof.
  intro Hn. destruct n as [|k]; [lia|].
  exists (modulo_de g (repeat c (S k))), (estado_de g (repeat c (S k))),
         (sklearn.fit (repeat c (S k))).
  split; [apply importar_ok; now rewrite repeat_length|].
  split; [reflexivity|].
  split.
  { unfold sklearn.fit. cbv zeta. cbn [sklearn.data_range_].
    now rewrite nanmin_repeat, nanmax_repeat, Rminus_diag. }
  split; [apply scale_repeat|].
  split.
  { cbn [modulo_de dados_scaled data]. rewrite map_repeat. now rewrite transform_repeat. }
  rewrite <- (transform_repeat c k).
  apply inverse_transform_transform. rewrite scale_repeat. lra.
Qed.

(** C4, as the script behaves: nothing checks the length of the series.  With
    at most [window] prices the loop of lines 16-18 ends normally with no
    sample at all, and the import then stops on line 20, before any model is
    fitted, with the IndexError of [X.shape[1]]; an empty series is refused
    earlier, by the scaler, with a ValueError. *)
Theorem serie_curta_nao_importa (g : G) (precos : list R) :
  (length precos <= window)%nat ->
  (precos = [] -> importar (coluna precos) (inicial g) = Erro ValueError) /\
  (precos <> [] ->
   exists serie st,
     fit_transform (coluna precos) (inicial g) = Ok (serie, st) /\
     janelas serie = Ok ([], []) /\
     importar (coluna precos) (inicial g) = Erro IndexError).
Proof.
  intro Hlen. split.
  - intros ->. reflexivity.
  - intro Hne.
    set (serie := map (sklearn.transform (sklearn.fit precos)) precos).
    assert (Hserie : length serie = length precos) by apply length_map.
    assert (Hjan : janelas {| shape := [length precos; 1%nat]; data := serie |}
                   = Ok ([], [])).
    { rewrite <- Hserie, janelas_ok. unfold n_amostras.
      replace (length serie - window)%nat with 0%nat by lia.
      now rewrite skipn_all2 by lia. }
    eexists _, _.
    split; [now apply fit_transform_ok|].
    split; [exact Hjan|].
    unfold importar.
    rewrite (bind_ok _ _ _ _ _ (fit_transform_ok precos (inicial g) Hne)).
    fold serie. rewrite Hjan. reflexivity.
Qed.

(** ** Further properties of the script *)



Lemma importar_curta (g : G) (precos : list R) :
  (length precos <= window)%nat ->
  exists e, importar (coluna precos) (inicial g) = Erro e.
Proof.
  intro Hlen. destruct precos as [|p ps] eqn:Hp.
  - exists ValueError. reflexivity.
  - rewrite <- Hp in *.
    assert (Hne : precos <> []) by (rewrite Hp; discriminate).
    set (serie := map (sklearn.transform (sklearn.fit precos)) precos).
    assert (Hserie : length serie = length precos) by apply length_map.
    exists IndexError. unfold importar.
    rewrite (bind_ok _ _ _ _ _ (fit_transform_ok precos (inicial g) Hne)).
    fold serie. rewrite <- Hserie, janelas_ok. unfold n_amostras.
    replace (length serie - window)%nat with 0%nat by lia.
    reflexivity.
Qed.

(** X1: the import succeeds exactly on the series of more than [window] prices. *)
Theorem importar_sse_mais_que_a_janela (g : G) (precos : list R) :
  (exists m st, importar (coluna precos) (inicial g) = Ok (m, st))
  <-> (window < length precos)%nat.
Proof.
  split.
  - intros (m & st & Himp).
    destruct (Nat.lt_ge_cases window (length precos)) as [Hlt|Hge]; [exact Hlt|].
    destruct (importar_curta g precos Hge) as [e He].
    rewrite He in Himp. discriminate.
  - intro Hlt. eexists _, _. now apply importar_ok.
Qed.

(** X2: consecutive training windows overlap: window [i + 1] is window [i]
    moved one price forward, and its last entry is the target of sample [i]. *)
Theorem janelas_sobrepostas (g : G) (precos : list R) :
  (window < length precos)%nat ->
  exists m st,
    importar (coluna precos) (inicial g) = Ok (m, st) /\
    forall i, (S i < length precos - window)%nat ->
      (forall j, (S j < window)%nat ->
         exists v, item2 (X m) (S i) j = Ok v /\ item2 (X m) i (S j) = Ok v) /\
      (exists v, item2 (X m) (S i) (window - 1) = Ok v /\ item1 (y m) i = Ok v).
Proof.
  intro Hlen.
  exists (modulo_de g precos), (estado_de g precos).
  split; [now apply importar_ok|].
  cbn [modulo_de X y].
  set (serie := map (sklearn.transform (sklearn.fit precos)) precos).
  assert (Hserie : length serie = length precos) by apply length_map.
  intros i Hi. split.
  - intros j Hj.
    destruct (nth_error_dentro serie (S i + j)) as [v Hv]; [lia|].
    exists v.
    rewrite !item2_X_de by (unfold n_amostras; lia).
    unfold lookup. replace (i + S j)%nat with (S i + j)%nat by lia.
    now rewrite Hv.
  - destruct (nth_error_dentro serie (i + window)) as [v Hv]; [lia|].
    exists v.
    rewrite item2_X_de, item1_y_de by (unfold n_amostras, window in *; lia).
    unfold lookup. replace (S i + (window - 1))%nat with (i + window)%nat
      by (unfold window; lia).
    now rewrite Hv.
Qed.


Lemma executar_ok (m : modulo) (serie : list R) (s : sklearn.MinMaxScaler) :
  dados_scaled m = {| shape := [length serie; 1%nat]; data := serie |} ->
  (window <= length serie)%nat ->
  let ultimos := skipn (length serie - window) serie in
  forall op st, scaler st = Some s ->
    exists st',
      executar m op st
      = Ok (sklearn.inverse_transform s
              match op with
              | PrevisaoLstm => model_lstm m ultimos
              | PrevisaoMlp => model_mlp m ultimos
              | PrevisaoRegLinear => sklearn.decision (model_lr m) ultimos
              end, st') /\
      scaler st' = Some s.
Proof.
  intros Hds Hw ultimos op st Hst. destruct op; cbn [executar].
  - destruct (previsao_lstm_ok m serie s st Hds Hw Hst) as [a Ha]. eauto.
  - destruct (previsao_mlp_ok m serie s st Hds Hw Hst) as [a Ha]. eauto.
  - destruct (previsao_reg_linear_ok m serie s st Hds Hw Hst) as [a Ha]. eauto.
Qed.

(** X7: however the dashboard orders and repeats its calls, each [previsao_*]
    function returns the same price every time it is called. *)
Theorem previsoes_repetidas (g : G) (precos : list R) :
  (window < length precos)%nat ->
  exists m st v_lstm v_mlp v_lr,
    importar (coluna precos) (inicial g) = Ok (m, st) /\
    forall ops, exists st',
      executar_todas m ops st
      = Ok (map (fun op => match op with
                           | PrevisaoLstm => v_lstm
                           | PrevisaoMlp => v_mlp
                           | PrevisaoRegLinear => v_lr
                           end) ops, st').
Proof.
  intro Hlen.
  set (s := sklearn.fit precos).
  set (serie := map (sklearn.transform s) precos).
  assert (Hw : (window <= length serie)%nat) by (unfold serie; rewrite length_map; lia).
  pose proof (executar_ok (modulo_de g precos) serie s
                (dados_scaled_modulo_de g precos) Hw) as Hop.
  cbv zeta in Hop.
  set (ultimos := skipn (length serie - window) serie) in *.
  exists (modulo_de g precos), (estado_de g precos),
    (sklearn.inverse_transform s (model_lstm (modulo_de g precos) ultimos)),
    (sklearn.inverse_transform s (model_mlp (modulo_de g precos) ultimos)),
    (sklearn.inverse_transform s (sklearn.decision (model_lr (modulo_de g precos)) ultimos)).
  split; [now apply importar_ok|].
  intro ops.
  assert (Hgen : forall st, scaler st = Some s ->
            exists st', executar_todas (modulo_de g precos) ops st
              = Ok (map (fun op => match op with
                   | PrevisaoLstm =>
                       sklearn.inverse_transform s (model_lstm (modulo_de g precos) ultimos)
                   | PrevisaoMlp =>
                       sklearn.inverse_transform s (model_mlp (modulo_de g precos) ultimos)
                   | PrevisaoRegLinear =>
                       sklearn.inverse_transform s
                         (sklearn.decision (model_lr (modulo_de g precos)) ultimos)
                   end) ops, st')).
  { induction ops as [|op ops IH]; intros st Hst.
    - exists st. reflexivity.
    - destruct (Hop op st Hst) as (st1 & Hrun & Hst1).
      destruct (IH st1 Hst1) as (st2 & Hrest).
      exists st2. cbn [executar_todas map].
      rewrite (bind_ok _ _ _ _ _ Hrun), (bind_ok _ _ _ _ _ Hrest).
      unfold ret. destruct op; reflexivity. }
  apply Hgen. reflexivity.
Qed.







Lemma argmin_from_spec (full : list R) :
  forall l pre best_i best,
    full = pre ++ l ->
    nth_error full best_i = Some best ->
    (forall j e, (j < length pre)%nat -> nth_error full j = Some e -> best <= e) ->
    (forall j e, (j < best_i)%nat -> nth_error full j = Some e -> best < e) ->
    exists ek,
      nth_error full (argmin_from l (length pre) best_i best) = Some ek /\
      (forall j e, nth_error full j = Some e -> ek <= e) /\
      (forall j e, (j < argmin_from l (length pre) best_i best)%nat ->
                   nth_error full j = Some e -> ek < e).
Proof.
  induction l as [|x t IH]; intros pre best_i best Hfull Hbest Hmin Hfirst.
  - cbn [argmin_from]. exists best. split; [exact Hbest|]. split; [|exact Hfirst].
    intros j e Hj. apply (Hmin j); [|exact Hj].
    rewrite app_nil_r in Hfull. subst full.
    apply nth_error_Some. rewrite Hj. discriminate.
  - cbn [argmin_from].
    assert (Hx : nth_error full (length pre) = Some x).
    { subst full. rewrite nth_error_app2 by lia. now rewrite Nat.sub_diag. }
    assert (Hfull' : full = (pre ++ [x]) ++ t) by (now rewrite <- app_assoc).
    assert (Hlen' : length (pre ++ [x]) = S (length pre))
      by (rewrite length_app; cbn [length]; lia).
    rewrite <- Hlen'.
    destruct (Rlt_dec x best) as [Hlt|Hge].
    + apply IH; [exact Hfull' | exact Hx | |].
      * intros j e Hj He. rewrite Hlen' in Hj.
        destruct (Nat.eq_dec j (length pre)) as [->|Hne].
        -- rewrite Hx in He. injection He as <-. lra.
        -- assert (best <= e) by (apply (Hmin j); [lia | exact He]). lra.
      * intros j e Hj He.
        assert (best <= e) by (apply (Hmin j); [lia | exact He]). lra.
    + apply IH; [exact Hfull' | exact Hbest | | exact Hfirst].
      intros j e Hj He. rewrite Hlen' in Hj.
      destruct (Nat.eq_dec j (length pre)) as [->|Hne].
      * rewrite Hx in He. injection He as <-. lra.
      * apply (Hmin j); [lia | exact He].
Qed.

Lemma argmin_spec (l : list R) :
  l <> [] ->
  exists k ek,
    argmin l = Ok k /\
    nth_error l k = Some ek /\
    (forall j e, nth_error l j = Some e -> ek <= e) /\
    (forall j e, (j < k)%nat -> nth_error l j = Some e -> ek < e).
Proof.
  destruct l as [|x t]; [contradiction|]. intros _.
  destruct (argmin_from_spec (x :: t) t [x] 0%nat x) as (ek & Hk & Hmin & Hfirst).
  - reflexivity.
  - reflexivity.
  - intros j e Hj He. cbn [length] in Hj.
    assert (j = 0%nat) by lia. subst j. cbn in He. injection He as <-. lra.
  - intros j e Hj. lia.
  - cbn [length] in *. exists (argmin_from t 1 0 x), ek. repeat split; assumption.
Qed.

(** X12: the model the dashboard announces as the best is always one of the
    three: its error is no larger than the other two, and a model listed
    before it has a strictly larger error, so a tie goes to the model listed
    first (LSTM, then MLP, then the regression). *)
Theorem melhor_modelo_tem_o_menor_erro (m : modulo) :
  exists k nome ek,
    argmin (erros m) = Ok k /\
    nth_error app.modelos k = Some nome /\
    app.melhor_modelo (erros m) = Ok nome /\
    nth_error (erros m) k = Some ek /\
    (forall j e, nth_error (erros m) j = Some e -> ek <= e) /\
    (forall j e, (j < k)%nat -> nth_error (erros m) j = Some e -> ek < e).
Proof.
  destruct (argmin_spec (erros m)) as (k & ek & Hk & Hek & Hmin & Hfirst);
    [unfold erros; discriminate|].
  assert (Hlt : (k < 3)%nat).
  { change 3%nat with (length (erros m)). apply nth_error_Some. rewrite Hek. discriminate. }
  destruct (nth_error app.modelos k) as [nome|] eqn:Hnome.
  - exists k, nome, ek. unfold app.melhor_modelo. rewrite Hk. cbn [bind_r].
    unfold app.item. rewrite Hnome. repeat split; assumption.
  - apply nth_error_None in Hnome. cbn [app.modelos length] in Hnome. lia.
Qed.

Lemma tl_firstn (k : nat) (l : list R) : tl (firstn (S k) l) = firstn k (tl l).
Proof. destruct l; [cbn [firstn tl]; now rewrite firstn_nil | reflexivity]. Qed.

Lemma tl_skipn (k : nat) (l : list R) : tl (skipn k l) = skipn (S k) l.
Proof.
  revert l. induction k as [|k IH]; intro l.
  - now destruct l.
  - destruct l as [|a l]; [reflexivity|]. cbn [skipn] in *. apply IH.
Qed.

Lemma skipn_ultimo (l : list R) (k : nat) (a : R) :
  length l = S k -> nth_error l k = Some a -> skipn k l = [a].
Proof.
  revert l. induction k as [|k IH]; intros l Hlen Hnth.
  - destruct l as [|b [|c l]]; try discriminate. cbn in Hnth. now injection Hnth as ->.
  - destruct l as [|b l]; [discriminate|]. cbn [skipn]. apply IH.
    + cbn [length] in Hlen. lia.
    + exact Hnth.
Qed.

Lemma ultimos_deslocados (w : nat) (serie : list R) (a : R) :
  (S w < length serie)%nat ->
  nth_error serie (length serie - 1) = Some a ->
  skipn (length serie - S w) serie
  = tl (firstn (S w) (skipn (length serie - S w - 1) serie)) ++ [a].
Proof.
  intros Hlen Ha.
  rewrite tl_firstn, tl_skipn.
  replace (S (length serie - S w - 1)) with (length serie - S w)%nat by lia.
  rewrite <- (firstn_skipn w (skipn (length serie - S w) serie)) at 1.
  f_equal. rewrite skipn_skipn.
  replace (w + (length serie - S w))%nat with (length serie - 1)%nat by lia.
  apply skipn_ultimo; [lia | exact Ha].
Qed.

Lemma ultimos_da_ultima_janela (serie : list R) (a : R) :
  (window < length serie)%nat ->
  nth_error serie (length serie - 1) = Some a ->
  skipn (length serie - window) serie
  = tl (janela_em serie (length serie - window - 1)) ++ [a].
Proof. intros Hlen Ha. unfold janela_em. now apply (ultimos_deslocados 9). Qed.

(** X13: the window a forecast is made from is the last training window moved
    one price forward: it drops that window's first price and ends with the
    last training target. *)
Theorem janela_da_previsao (g : G) (precos : list R) :
  (window < length precos)%nat ->
  exists m st s ultimos ultima_janela ultimo_alvo,
    importar (coluna precos) (inicial g) = Ok (m, st) /\
    scaler st = Some s /\
    length (samples (X m)) = (length precos - window)%nat /\
    nth_error (samples (X m)) (length precos - window - 1) = Some ultima_janela /\
    nth_error (data (y m)) (length precos - window - 1) = Some ultimo_alvo /\
    ultimos = tl ultima_janela ++ [ultimo_alvo] /\
    (exists st', previsao_lstm m st
                 = Ok (sklearn.inverse_transform s (model_lstm m ultimos), st')) /\
    (exists st', previsao_mlp m st
                 = Ok (sklearn.inverse_transform s (model_mlp m ultimos), st')) /\
    (exists st', previsao_reg_linear m st
                 = Ok (sklearn.inverse_transform s (sklearn.decision (model_lr m) ultimos),
                       st')).
Proof.
  intro Hlen.
  set (s := sklearn.fit precos).
  set (serie := map (sklearn.transform s) precos).
  assert (Hserie : length serie = length precos) by apply length_map.
  assert (Hw : (window <= length serie)%nat) by lia.
  destruct (nth_error_dentro serie (length serie - 1)) as [a Ha]; [lia|].
  exists (modulo_de g precos), (estado_de g precos), s,
    (skipn (length serie - window) serie),
    (janela_em serie (length serie - window - 1)), a.
  split; [now apply importar_ok|].
  split; [reflexivity|].
  cbn [modulo_de X y]. fold s. fold serie.
  split; [rewrite length_samples_X_de; unfold n_amostras; now rewrite Hserie|].
  split.
  { rewrite samples_X_de, <- Hserie.
    rewrite (map_nth_error (janela_em serie) (length serie - window - 1)
               (seq 0 (n_amostras (length serie)))
               (d := (length serie - window - 1)%nat)); [reflexivity|].
    rewrite nth_error_nth' with (d := 0%nat)
      by (rewrite length_seq; unfold n_amostras; lia).
    rewrite seq_nth by (unfold n_amostras; lia). reflexivity. }
  split.
  { cbn [y_de array data]. rewrite nth_error_skipn, <- Hserie, <- Ha. f_equal.
    unfold window in *. lia. }
  split; [apply ultimos_da_ultima_janela; [lia | exact Ha]|].
  pose proof (dados_scaled_modulo_de g precos) as Hds. fold s in Hds. fold serie in Hds.
  assert (Hst : scaler (estado_de g precos) = Some s) by reflexivity.
  split; [|split].
  - destruct (previsao_lstm_ok _ _ _ _ Hds Hw Hst) as [c Hc]. eexists. exact Hc.
  - destruct (previsao_mlp_ok _ _ _ _ Hds Hw Hst) as [c Hc]. eexists. exact Hc.
  - destruct (previsao_reg_linear_ok _ _ _ _ Hds Hw Hst) as [c Hc]. eexists. exact Hc.
Qed.

End Previsoes.

(** ** The script on concrete series *)

Lemma doze_mais_que_a_janela : (window < length doze_iguais)%nat.
Proof. unfold doze_iguais. rewrite repeat_length. unfold window. lia. Defined.

Lemma exemplo_mais_que_a_janela : (window < length serie_exemplo)%nat.
Proof. unfold serie_exemplo, window. cbn [length]. lia. Defined.

Lemma janelas_deslizantes_witness :
  exists m st,
    importar unit treino_nulo treino_nulo regressao_nula
      (coluna serie_exemplo) (inicial unit tt) = Ok (m, st) /\
    shape (X m) = [2%nat; 10%nat] /\
    shape (y m) = [2%nat] /\
    item2 (X m) 1 10 = Erro IndexError.
Proof.
  destruct (janelas_deslizantes unit treino_nulo treino_nulo regressao_nula tt serie_exemplo
              exemplo_mais_que_a_janela)
    as (m & st & s & Himp & _ & HX & Hy & _ & _).
  exists m, st. split; [exact Himp|]. split; [exact HX|]. split; [exact Hy|].
  unfold item2. rewrite HX. reflexivity.
Defined.

Lemma X_lstm_reshape_de_X_witness :
  exists m st,
    importar unit treino_nulo treino_nulo regressao_nula
      (coluna serie_exemplo) (inicial unit tt) = Ok (m, st) /\
    shape (X_lstm m) = [2%nat; 10%nat; 1%nat] /\
    item3 (X_lstm m) 1 9 0 = item2 (X m) 1 9.
Proof.
  destruct (X_lstm_reshape_de_X unit treino_nulo treino_nulo regressao_nula tt serie_exemplo
              exemplo_mais_que_a_janela)
    as (m & st & Himp & _ & Hsh & _ & Hitem & _).
  exists m, st. split; [exact Himp|]. split; [exact Hsh | apply Hitem].
Defined.

Lemma previsao_do_proximo_preco_witness :
  exists m st v st',
    importar unit treino_nulo treino_nulo regressao_nula
      (coluna serie_exemplo) (inicial unit tt) = Ok (m, st) /\
    previsao_reg_linear unit m st = Ok (v, st').
Proof.
  destruct (previsao_do_proximo_preco unit treino_nulo treino_nulo regressao_nula tt
              serie_exemplo exemplo_mais_que_a_janela)
    as (m & st & s & antes & ultimos & Himp & Hs & _ & _ & Hprev).
  destruct (Hprev st Hs) as (_ & _ & st' & Hlr).
  eexists m, st, _, st'. split; [exact Himp | exact Hlr].
Defined.

Lemma rmse_historico_witness :
  exists m st s,
    importar unit treino_nulo treino_nulo regressao_nula
      (coluna serie_exemplo) (inicial unit tt) = Ok (m, st) /\
    rmse_lr_reais m
    = rmse_spec (sklearn.inverse_transform s)
        (map (sklearn.decision (model_lr m)) (samples (X m))) (data (y m)).
Proof.
  destruct (rmse_historico unit treino_nulo treino_nulo regressao_nula tt serie_exemplo
              exemplo_mais_que_a_janela)
    as (m & st & s & Himp & _ & _ & _ & _ & _ & _ & Hlr).
  exists m, st, s. split; [exact Himp | exact Hlr].
Defined.

Lemma scaler_ajustado_uma_vez_witness :
  exists m st vs st',
    importar unit treino_nulo treino_nulo regressao_nula
      (coluna serie_exemplo) (inicial unit tt) = Ok (m, st) /\
    executar_todas unit m [PrevisaoLstm; PrevisaoMlp; PrevisaoRegLinear] st = Ok (vs, st') /\
    scaler unit st' = Some (sklearn.fit serie_exemplo) /\
    n_fits (chamadas unit st') = 1%nat.
Proof.
  destruct (scaler_ajustado_uma_vez unit treino_nulo treino_nulo regressao_nula tt
              serie_exemplo [PrevisaoLstm; PrevisaoMlp; PrevisaoRegLinear]
              exemplo_mais_que_a_janela)
    as (m & st & vs & st' & resto & Himp & _ & _ & Hrun & _ & Hsc & _ & _ & Hn & _).
  exists m, st, vs, st'. repeat split; assumption.
Defined.

Lemma serie_constante_importa_witness :
  exists m st,
    importar unit treino_nulo treino_nulo regressao_nula
      (coluna doze_iguais) (inicial unit tt) = Ok (m, st) /\
    data (dados_scaled m) = repeat 0 12.
Proof.
  destruct (serie_constante_importa unit treino_nulo treino_nulo regressao_nula tt 15 12)
    as (m & st & s & Himp & _ & _ & _ & Hds & _).
  - unfold window. lia.
  - exists m, st. split; [exact Himp | exact Hds].
Defined.

Lemma serie_curta_nao_importa_witness :
  importar unit treino_nulo treino_nulo regressao_nula
    (coluna dez_precos) (inicial unit tt) = Erro IndexError.
Proof.
  destruct (serie_curta_nao_importa unit treino_nulo treino_nulo regressao_nula tt dez_precos)
    as [_ Hcurta].
  - unfold dez_precos, window. cbn [length]. lia.
  - destruct Hcurta as (serie & st & _ & _ & Himp).
    + unfold dez_precos. discriminate.
    + exact Himp.
Defined.

(** C3, as stated, fails on twelve equal prices: the import ends normally,
    with a normalized series of zeros, and raises nothing. *)
Lemma doze_iguais_importa :
  (exists m st,
     importar unit treino_nulo treino_nulo regressao_nula
      (coluna doze_iguais) (inicial unit tt) = Ok (m, st) /\
     data (dados_scaled m) = repeat 0 12) /\
  ~ (exists e, importar unit treino_nulo treino_nulo regressao_nula
                 (coluna doze_iguais) (inicial unit tt) = Erro e).
Proof.
  pose proof (importar_ok unit treino_nulo treino_nulo regressao_nula tt doze_iguais
                doze_mais_que_a_janela) as Himp.
  split.
  - exists (modulo_de unit treino_nulo treino_nulo regressao_nula tt doze_iguais),
      (estado_de unit treino_nulo treino_nulo regressao_nula tt doze_iguais).
    split; [exact Himp|].
    cbn [modulo_de dados_scaled data]. unfold doze_iguais.
    now rewrite map_repeat, (transform_repeat 15 11).
  - intros [e He]. rewrite Himp in He. discriminate.
Qed.

(** C4, as stated, fails on ten prices: the windowing loop raises nothing and
    ends with no sample; the error that stops the import is the IndexError
    of the reshape that follows. *)
Lemma dez_precos_sem_amostras :
  exists serie st,
    fit_transform unit (coluna dez_precos) (inicial unit tt) = Ok (serie, st) /\
    janelas serie = Ok ([], []) /\
    importar unit treino_nulo treino_nulo regressao_nula
      (coluna dez_precos) (inicial unit tt) = Erro IndexError.
Proof.
  eexists _, _. split; [reflexivity|]. split; reflexivity.
Qed.

(** ** Further properties on concrete series *)

Lemma dez_nao_passa_da_janela : ~ (window < length dez_precos)%nat.
Proof. unfold dez_precos, window. cbn [length]. lia. Defined.

Lemma importar_sse_mais_que_a_janela_witness :
  (exists m st,
     importar unit treino_nulo treino_nulo regressao_nula
       (coluna serie_exemplo) (inicial unit tt) = Ok (m, st)) /\
  ~ (exists m st,
       importar unit treino_nulo treino_nulo regressao_nula
         (coluna dez_precos) (inicial unit tt) = Ok (m, st)).
Proof.
  split.
  - apply (importar_sse_mais_que_a_janela unit treino_nulo treino_nulo regressao_nula tt
             serie_exemplo). exact exemplo_mais_que_a_janela.
  - intro H.
    apply (importar_sse_mais_que_a_janela unit treino_nulo treino_nulo regressao_nula tt
             dez_precos) in H.
    exact (dez_nao_passa_da_janela H).
Defined.

Lemma janelas_sobrepostas_witness :
  exists m st v,
    importar unit treino_nulo treino_nulo regressao_nula
      (coluna serie_exemplo) (inicial unit tt) = Ok (m, st) /\
    item2 (X m) 1 9 = Ok v /\ item1 (y m) 0 = Ok v.
Proof.
  destruct (janelas_sobrepostas unit treino_nulo treino_nulo regressao_nula tt serie_exemplo
              exemplo_mais_que_a_janela)
    as (m & st & Himp & Hsob).
  destruct (Hsob 0%nat) as (_ & v & Hx & Hy).
  - unfold serie_exemplo, window. cbn [length]. lia.
  - exists m, st, v. repeat split; assumption.
Defined.

Lemma previsoes_repetidas_witness :
  exists m st v_lstm v_lr st',
    importar unit treino_nulo treino_nulo regressao_nula
      (coluna serie_exemplo) (inicial unit tt) = Ok (m, st) /\
    executar_todas unit m [PrevisaoLstm; PrevisaoRegLinear; PrevisaoLstm; PrevisaoLstm] st
    = Ok ([v_lstm; v_lr; v_lstm; v_lstm], st').
Proof.
  destruct (previsoes_repetidas unit treino_nulo treino_nulo regressao_nula tt serie_exemplo
              exemplo_mais_que_a_janela)
    as (m & st & v_lstm & v_mlp & v_lr & Himp & Hops).
  destruct (Hops [PrevisaoLstm; PrevisaoRegLinear; PrevisaoLstm; PrevisaoLstm])
    as (st' & Hrun).
  exists m, st, v_lstm, v_lr, st'. split; [exact Himp | exact Hrun].
Defined.


Lemma janela_da_previsao_witness :
  exists m st ultimos ultima_janela ultimo_alvo,
    importar unit treino_nulo treino_nulo regressao_nula
      (coluna serie_exemplo) (inicial unit tt) = Ok (m, st) /\
    nth_error (samples (X m)) 1 = Some ultima_janela /\
    nth_error (data (y m)) 1 = Some ultimo_alvo /\
    ultimos = tl ultima_janela ++ [ultimo_alvo].
Proof.
  destruct (janela_da_previsao unit treino_nulo treino_nulo regressao_nula tt serie_exemplo
              exemplo_mais_que_a_janela)
    as (m & st & s & ultimos & uj & ua & Himp & _ & _ & Huj & Hua & Hult & _).
  exists m, st, ultimos, uj, ua. repeat split; assumption.
Defined.



(** In binary64 the scaler leaves [0, 1] and misses the round trip by one
    unit in the last place: the highest price of [b64.um_a_seis] is
    normalized above 1, and the price 12 of the documented scenario comes
    back below 12. *)
Lemma binario64_normalizado_acima_de_1 :
  PrimFloat.ltb PrimFloat.one
    (b64.transform (b64.fit b64.um_a_seis) (b64.nanmax b64.um_a_seis)) = true.
Proof. vm_compute. reflexivity. Qed.

Lemma binario64_ida_e_volta_inexata :
  PrimFloat.ltb
    (b64.inverse_transform (b64.fit b64.serie_exemplo)
       (b64.transform (b64.fit b64.serie_exemplo) b64.doze))
    b64.doze = true /\
  In b64.doze b64.serie_exemplo.
Proof. split; [vm_compute; reflexivity | right; left; reflexivity]. Qed.
